(** * FastAPI request-body models demo: a shallow embedding

    The service of [main.py] and [models.py]: a registration endpoint whose
    request body is validated by the pydantic model [UserCreate], whose
    return value is filtered through the response model [UserOut], and two
    read-only endpoints, all sharing the module-level list [fake_db].

    Python values are embedded as the inductive [value]; a Python [dict]
    with string keys is a [gmap string value]; the module-level list is
    threaded through the handlers as explicit state; the reading of
    [datetime.now()] is an input of the handler that takes it.  The
    address grammar behind [EmailStr] lives in an external package and is
    an interface ([EmailValidator]) of the development. *)

From Stdlib Require Import Ascii.
From stdpp Require Import gmap strings list fin_maps sorting.

Local Set Warnings "-register-all".

(** ** Python values *)

(** What [json.loads] produces for a request body, plus [datetime]
    objects, which the handler creates.  Numbers are kept as integers: no
    field of the two models is numeric, so a number is only ever rejected
    or ignored. *)
Inductive value :=
  | VNone
  | VBool (b : bool)
  | VInt (z : Z)
  | VStr (s : string)
  | VDatetime (t : Z)
  | VList (l : list value)
  | VDict (d : gmap string value).

(** A [datetime] is its position on the (naive, local) time line, in
    microseconds; [datetime] comparison is comparison of these. *)
Abbreviation datetime := Z (only parsing).
Abbreviation dict := (gmap string value) (only parsing).

(** ** Validation errors *)

(** One entry of pydantic's error list: the error type and the location of
    the offending input. *)
Record ErrorDetail := { type : string; loc : list string }.

Definition missing (name : string) : ErrorDetail :=
  {| type := "missing"; loc := [name] |}.
Definition string_type (name : string) : ErrorDetail :=
  {| type := "string_type"; loc := [name] |}.
Definition value_error (name : string) : ErrorDetail :=
  {| type := "value_error"; loc := [name] |}.
Definition datetime_type (name : string) : ErrorDetail :=
  {| type := "datetime_type"; loc := [name] |}.
Definition model_attributes_type : ErrorDetail :=
  {| type := "model_attributes_type"; loc := [] |}.

(** The outcome of validating one field or one model. *)
Abbreviation validated A := (list ErrorDetail + A)%type (only parsing).

Definition errors {A} (r : validated A) : list ErrorDetail :=
  match r with
  | inl errs => errs
  | inr _ => []
  end.

(** ** The address check behind [EmailStr] *)

(** [EmailStr] hands a string to the [email-validator] package and keeps
    the normalised address it returns, or fails.  The package is not part
    of the repository; the development is parametric in it and relies on
    two facts only: an address needs an [@]-sign, and a normalised address
    is accepted again unchanged. *)
Class EmailValidator := {
  validate_email : string → option string;
  validate_email_at_sign s :
    "@"%char ∉ String.list_ascii_of_string s → validate_email s = None;
  validate_email_normalized s n :
    validate_email s = Some n → validate_email n = Some n
}.

(** ** Field validators (pydantic, lax mode, input from JSON) *)

(** [name: str], no default. *)
Definition str_field (name : string) (input : dict) : validated string :=
  match input !! name with
  | None => inl [missing name]
  | Some (VStr s) => inr s
  | Some _ => inl [string_type name]
  end.

(** [name: Optional[str] = None]. *)
Definition optional_str_field (name : string) (input : dict)
    : validated (option string) :=
  match input !! name with
  | None => inr None
  | Some VNone => inr None
  | Some (VStr s) => inr (Some s)
  | Some _ => inl [string_type name]
  end.

(** [name: datetime], no default.  Lax mode also reads strings and numbers
    as datetimes; that conversion is not modelled (they are rejected here):
    the only value the service validates against this field is the
    [datetime] object its handler has just created. *)
Definition datetime_field (name : string) (input : dict) : validated datetime :=
  match input !! name with
  | None => inl [missing name]
  | Some (VDatetime t) => inr t
  | Some _ => inl [datetime_type name]
  end.

Section Models.
Context `{EmailValidator}.

(** [name: EmailStr], no default: a string first, an address next. *)
Definition email_field (name : string) (input : dict) : validated string :=
  match input !! name with
  | None => inl [missing name]
  | Some (VStr s) =>
      match validate_email s with
      | Some normalized => inr normalized
      | None => inl [value_error name]
      end
  | Some _ => inl [string_type name]
  end.
End Models.

(** ** models.py *)

Module UserCreate.
Record t := {
  username : string;
  email : string;
  password : string;
  full_name : option string
}.

(** [UserCreate.model_validate]: every field is validated, in declaration
    order, and the errors of all of them are reported together; keys that
    are not fields are ignored (pydantic's default [extra='ignore']). *)
Definition validate `{EmailValidator} (input : value) : validated t :=
  match input with
  | VDict d =>
      let u := str_field "username" d in
      let e := email_field "email" d in
      let p := str_field "password" d in
      let f := optional_str_field "full_name" d in
      match u, e, p, f with
      | inr u, inr e, inr p, inr f =>
          inr {| username := u; email := e; password := p; full_name := f |}
      | _, _, _, _ => inl (errors u ++ errors e ++ errors p ++ errors f)
      end
  | _ => inl [model_attributes_type]
  end.
End UserCreate.

Module UserOut.
Record t := {
  username : string;
  email : string;
  full_name : option string;
  join_date : datetime
}.

Definition validate `{EmailValidator} (input : value) : validated t :=
  match input with
  | VDict d =>
      let u := str_field "username" d in
      let e := email_field "email" d in
      let f := optional_str_field "full_name" d in
      let j := datetime_field "join_date" d in
      match u, e, f, j with
      | inr u, inr e, inr f, inr j =>
          inr {| username := u; email := e; full_name := f; join_date := j |}
      | _, _, _, _ => inl (errors u ++ errors e ++ errors f ++ errors j)
      end
  | _ => inl [model_attributes_type]
  end.

(** [model_dump]: the declared fields and nothing else; an absent
    [full_name] is dumped as [None].  The JSON encoding that follows (a
    [datetime] becomes an ISO 8601 string) is not part of the model: the
    body keeps the [datetime]. *)
Definition dump (u : t) : dict :=
  {[ "username" := VStr (username u);
     "email" := VStr (email u);
     "full_name" := from_option VStr VNone (full_name u);
     "join_date" := VDatetime (join_date u) ]}.
End UserOut.

(** ** main.py *)

(** [create_user]: the body of the handler, after the framework has built
    [user_data].  Returns the dictionary it returns and the new
    [fake_db]. *)
Definition create_user (now : datetime) (user_data : UserCreate.t)
    (fake_db : list dict) : dict * list dict :=
  let db_user : dict :=
    {[ "username" := VStr (UserCreate.username user_data);
       "email" := VStr (UserCreate.email user_data);
       "full_name" := from_option VStr VNone (UserCreate.full_name user_data);
       "join_date" := VDatetime now;
       "hashed_password" := VStr ("hashed_" +:+ UserCreate.password user_data) ]} in
  (db_user, fake_db ++ [db_user]).

Definition root : dict :=
  {[ "message" := VStr "FastAPI Server is running!" ]}.

Definition get_all_users (fake_db : list dict) : list dict := fake_db.

(** ** The framework around the handlers *)

Inductive request :=
  | GET_root
  | POST_users (body : value)
  | GET_users.

Inductive response :=
  | OK (content : value)
  | Created (content : dict)
  | UnprocessableEntity (detail : list ErrorDetail)
  | InternalServerError.

Definition status_code (r : response) : nat :=
  match r with
  | OK _ => 200
  | Created _ => 201
  | UnprocessableEntity _ => 422
  | InternalServerError => 500
  end.

(** FastAPI reports the errors of a body parameter under ["body"]. *)
Definition in_body (e : ErrorDetail) : ErrorDetail :=
  {| type := type e; loc := "body" :: loc e |}.

Section App.
Context `{EmailValidator}.

(** [POST /users/]: the framework builds [user_data: UserCreate] from the
    body or answers the request 422 without the handler running;
    [response_model=UserOut] validates what the handler returns and
    sends the dump of the result with [HTTP_201_CREATED]; a return value
    the response model rejects is a server error. *)
Definition post_users (now : datetime) (body : value) (fake_db : list dict)
    : response * list dict :=
  match UserCreate.validate body with
  | inl errs => (UnprocessableEntity (in_body <$> errs), fake_db)
  | inr user_data =>
      let '(db_user, fake_db') := create_user now user_data fake_db in
      match UserOut.validate (VDict db_user) with
      | inr out => (Created (UserOut.dump out), fake_db')
      | inl _ => (InternalServerError, fake_db')
      end
  end.

(** One request, served at clock reading [now]. *)
Definition app (now : datetime) (req : request) (fake_db : list dict)
    : response * list dict :=
  match req with
  | GET_root => (OK (VDict root), fake_db)
  | POST_users body => post_users now body fake_db
  | GET_users => (OK (VList (VDict <$> get_all_users fake_db)), fake_db)
  end.

(** A sequence of requests, each with the clock reading at which it is
    served; the responses in order and the final [fake_db]. *)
Fixpoint serve (reqs : list (datetime * request)) (fake_db : list dict)
    : list response * list dict :=
  match reqs with
  | [] => ([], fake_db)
  | (now, req) :: reqs =>
      let '(resp, fake_db) := app now req fake_db in
      let '(resps, fake_db) := serve reqs fake_db in
      (resp :: resps, fake_db)
  end.
End App.

(** ** Reading requests, answers and the store *)

(** The record [create_user] builds, and what the response model makes of
    it. *)
Definition db_user (now : datetime) (u : UserCreate.t) : dict :=
  (create_user now u []).1.

Definition user_out (now : datetime) (u : UserCreate.t) : UserOut.t :=
  {| UserOut.username := UserCreate.username u;
     UserOut.email := UserCreate.email u;
     UserOut.full_name := UserCreate.full_name u;
     UserOut.join_date := now |}.

(** The join dates of the records of a store, in order. *)
Definition join_date_of (r : dict) : option datetime :=
  match r !! "join_date" with
  | Some (VDatetime t) => Some t
  | _ => None
  end.

Definition join_dates (fake_db : list dict) : list datetime :=
  omap join_date_of fake_db.

Definition is_Created (r : response) : bool :=
  match r with
  | Created _ => true
  | _ => false
  end.

Section Registrations.
Context `{EmailValidator}.

(** The registrations among a sequence of requests: the accepted bodies,
    each with the clock reading of its request. *)
Definition accepted (nr : datetime * request) : option (datetime * UserCreate.t) :=
  match nr.2 with
  | POST_users body =>
      match UserCreate.validate body with
      | inr u => Some (nr.1, u)
      | inl _ => None
      end
  | _ => None
  end.

Definition registrations (reqs : list (datetime * request))
    : list (datetime * UserCreate.t) :=
  omap accepted reqs.
End Registrations.

(** The required fields of [UserCreate], and all its fields. *)
Definition required_fields : list string := ["username"; "email"; "password"].
Definition UserCreate_fields : list string :=
  ["username"; "email"; "password"; "full_name"].

(** A value the [EmailStr] field accepts. *)
Definition email_shaped `{EmailValidator} (v : value) : Prop :=
  ∃ s, v = VStr s ∧ is_Some (validate_email s).

(** What [Optional[str] = None] accepts at a key: nothing, [None] or a
    string. *)
Definition optional_str (o : option value) : Prop :=
  o = None ∨ o = Some VNone ∨ ∃ s, o = Some (VStr s).

(** ** A small address check to run the service on *)

(** A stand-in for the external package that meets the interface: a string
    is an address when it has exactly one [@]-sign, neither first nor
    last, and it is kept as it is.  It serves to evaluate the handlers on
    concrete requests; the general results do not depend on it. *)
Module Reference.
Definition at_signs (s : string) : list ascii :=
  filter (λ c, c = "@"%char) (String.list_ascii_of_string s).

Definition is_address (s : string) : bool :=
  bool_decide (length (at_signs s) = 1)
  && bool_decide (head (String.list_ascii_of_string s) ≠ Some "@"%char)
  && bool_decide (last (String.list_ascii_of_string s) ≠ Some "@"%char).

Definition check (s : string) : option string :=
  if is_address s then Some s else None.

Lemma check_at_sign s :
  "@"%char ∉ String.list_ascii_of_string s → check s = None.
Proof.
  intros Hnot. unfold check, is_address, at_signs.
  assert (filter (λ c, c = "@"%char) (String.list_ascii_of_string s) = [])
    as ->; [|done].
  induction (String.list_ascii_of_string s) as [|c l IH]; [done|].
  apply not_elem_of_cons in Hnot as [Hc Hl].
  rewrite filter_cons. destruct (decide (c = "@"%char)); [congruence|auto].
Qed.

Lemma check_normalized s n : check s = Some n → check n = Some n.
Proof.
  unfold check. destruct (is_address s) eqn:Hs; [|done].
  intros [= <-]. by rewrite Hs.
Qed.

Definition validator : EmailValidator :=
  {| validate_email := check;
     validate_email_at_sign := check_at_sign;
     validate_email_normalized := check_normalized |}.
End Reference.

(** ** The requests of [test_api.py] *)

Definition johndoe : dict :=
  {[ "username" := VStr "johndoe";
     "email" := VStr "john@example.com";
     "password" := VStr "securepassword123";
     "full_name" := VStr "John Doe" ]}.

Definition johndoe_content (now : datetime) : dict :=
  {[ "username" := VStr "johndoe";
     "email" := VStr "john@example.com";
     "full_name" := VStr "John Doe";
     "join_date" := VDatetime now ]}.

Definition johndoe_record (now : datetime) : dict :=
  {[ "username" := VStr "johndoe";
     "email" := VStr "john@example.com";
     "full_name" := VStr "John Doe";
     "join_date" := VDatetime now;
     "hashed_password" := VStr "hashed_securepassword123" ]}.

(** The valid and the invalid body of the script. *)
Definition user_data : value := VDict johndoe.

Definition invalid_data : value :=
  VDict {[ "email" := VStr "john@example.com";
           "password" := VStr "securepassword123" ]}.

(** Keys that are no fields of [UserCreate]. *)
Definition unknown_fields : dict :=
  {[ "is_admin" := VBool true; "age" := VInt 30 ]}.

(** ** test_api.py *)

(** What the script prints: the JSON body of an answer (the answer stands
    for its body) or its status code, after a label. *)
Inductive printed :=
  | Json (r : response)
  | StatusCode (n : nat).

(** The script against a running service with store [fake_db]: [GET /],
    [POST /users/] with [user_data], [POST /users/] with [invalid_data],
    and a [print] after each; the three requests are served at the clock
    readings [t1], [t2], [t3].  Returns the printed lines and the store the
    service is left with. *)
Definition test_api `{EmailValidator} (t1 t2 t3 : datetime)
    (fake_db : list dict) : list (string * printed) * list dict :=
  let '(response1, fake_db) := app t1 GET_root fake_db in
  let '(response2, fake_db) := app t2 (POST_users user_data) fake_db in
  let '(response3, fake_db) := app t3 (POST_users invalid_data) fake_db in
  ([ ("GET / response:", Json response1);
     ("POST /users/ response:", Json response2);
     ("Status Code:", StatusCode (status_code response2));
     ("Invalid request response:", Json response3) ],
   fake_db).

(** The errors of the four fields of [UserCreate] on a dictionary, in
    declaration order, and the locations a 422 answer can name. *)
Definition UserCreate_errors `{EmailValidator} (d : dict) : list ErrorDetail :=
  errors (str_field "username" d) ++ errors (email_field "email" d)
  ++ errors (str_field "password" d) ++ errors (optional_str_field "full_name" d).

Definition UserCreate_locs : list (list string) :=
  [ ["body"; "username"]; ["body"; "email"]; ["body"; "password"];
    ["body"; "full_name"] ].

(** * Results *)

Ltac evaluate := vm_compute; reflexivity.

(** ** The script's two registrations *)

Example post_user_data :
  @post_users Reference.validator 7 user_data [] =
    (Created (johndoe_content 7), [johndoe_record 7]).
Proof. evaluate. Qed.

Example post_invalid_data :
  @post_users Reference.validator 7 invalid_data [] =
    (UnprocessableEntity [ {| type := "missing"; loc := ["body"; "username"] |} ], []).
Proof. evaluate. Qed.

(** ** The handlers, equationally *)

Lemma create_user_eq now u fake_db :
  create_user now u fake_db = (db_user now u, fake_db ++ [db_user now u]).
Proof. reflexivity. Qed.

Lemma db_user_username now u :
  db_user now u !! "username" = Some (VStr (UserCreate.username u)).
Proof. by cbn; simplify_map_eq. Qed.

Lemma db_user_email now u :
  db_user now u !! "email" = Some (VStr (UserCreate.email u)).
Proof. by cbn; simplify_map_eq. Qed.

Lemma db_user_full_name now u :
  db_user now u !! "full_name" =
    Some (from_option VStr VNone (UserCreate.full_name u)).
Proof. by cbn; simplify_map_eq. Qed.

Lemma db_user_join_date now u :
  db_user now u !! "join_date" = Some (VDatetime now).
Proof. by cbn; simplify_map_eq. Qed.

Lemma db_user_hashed_password now u :
  db_user now u !! "hashed_password" =
    Some (VStr ("hashed_" +:+ UserCreate.password u)).
Proof. by cbn; simplify_map_eq. Qed.

Lemma db_user_dom now u :
  dom (db_user now u) =
    {[ "username"; "email"; "full_name"; "join_date"; "hashed_password" ]}.
Proof. cbn. rewrite !dom_insert_L, dom_singleton_L. set_solver. Qed.

Lemma dump_dom out :
  dom (UserOut.dump out) = {[ "username"; "email"; "full_name"; "join_date" ]}.
Proof.
  unfold UserOut.dump. rewrite !dom_insert_L, dom_singleton_L. set_solver.
Qed.

Section Handlers.
Context `{EmailValidator}.

Lemma str_field_inr name d s :
  str_field name d = inr s ↔ d !! name = Some (VStr s).
Proof.
  unfold str_field.
  destruct (d !! name) as [[]|]; split; intros; simplify_eq; done.
Qed.

Lemma email_field_inr name d n :
  email_field name d = inr n ↔
  ∃ s, d !! name = Some (VStr s) ∧ validate_email s = Some n.
Proof.
  unfold email_field. split.
  - destruct (d !! name) as [[| | |s| | |]|]; try done.
    destruct (validate_email s) eqn:Hs; intros; simplify_eq. eauto.
  - intros (s & -> & ->). done.
Qed.

Lemma optional_str_field_inr name d f :
  optional_str_field name d = inr f ↔
  match d !! name with
  | None | Some VNone => f = None
  | Some (VStr s) => f = Some s
  | Some _ => False
  end.
Proof.
  unfold optional_str_field.
  destruct (d !! name) as [[]|]; split; intros; simplify_eq; done.
Qed.

(** A body is accepted exactly when it is a dictionary whose four fields
    validate, and the model holds the four results. *)
Lemma UserCreate_validate_inr body u :
  UserCreate.validate body = inr u ↔
  ∃ d, body = VDict d
    ∧ str_field "username" d = inr (UserCreate.username u)
    ∧ email_field "email" d = inr (UserCreate.email u)
    ∧ str_field "password" d = inr (UserCreate.password u)
    ∧ optional_str_field "full_name" d = inr (UserCreate.full_name u).
Proof.
  split.
  - destruct body as [| | | | | |d]; try done. cbn.
    destruct (str_field "username" d) eqn:Hu,
      (email_field "email" d) eqn:He,
      (str_field "password" d) eqn:Hp,
      (optional_str_field "full_name" d) eqn:Hf;
      intros; simplify_eq; eexists; split_and!; done.
  - intros (d & -> & Hu & He & Hp & Hf). cbn. rewrite Hu, He, Hp, Hf.
    by destruct u.
Qed.

(** The address in an accepted body is in normal form. *)
Lemma UserCreate_validate_email body u :
  UserCreate.validate body = inr u →
  validate_email (UserCreate.email u) = Some (UserCreate.email u).
Proof.
  intros (d & _ & _ & (s & _ & Hs)%email_field_inr & _)%UserCreate_validate_inr.
  by eapply validate_email_normalized.
Qed.

(** The response model accepts what [create_user] returns. *)
Lemma UserOut_validate_db_user now u :
  validate_email (UserCreate.email u) = Some (UserCreate.email u) →
  UserOut.validate (VDict (db_user now u)) = inr (user_out now u).
Proof.
  intros He. unfold UserOut.validate.
  assert (str_field "username" (db_user now u) = inr (UserCreate.username u))
    as -> by (apply str_field_inr, db_user_username).
  assert (email_field "email" (db_user now u) = inr (UserCreate.email u))
    as -> by (apply email_field_inr; eauto using db_user_email).
  assert (optional_str_field "full_name" (db_user now u)
          = inr (UserCreate.full_name u)) as ->.
  { apply optional_str_field_inr. rewrite db_user_full_name.
    by destruct (UserCreate.full_name u). }
  unfold datetime_field. by rewrite db_user_join_date.
Qed.

(** [POST /users/] in one equation: a rejected body is answered 422 and
    [fake_db] stays; an accepted one appends its record and is answered
    with the dump of the response model. *)
Lemma post_users_eq now body fake_db :
  post_users now body fake_db =
    match UserCreate.validate body with
    | inl errs => (UnprocessableEntity (in_body <$> errs), fake_db)
    | inr u => (Created (UserOut.dump (user_out now u)),
                fake_db ++ [db_user now u])
    end.
Proof.
  unfold post_users.
  destruct (UserCreate.validate body) as [errs|u] eqn:Hv; [done|].
  rewrite create_user_eq, UserOut_validate_db_user; [done|].
  by eapply UserCreate_validate_email.
Qed.

Lemma post_users_Created now body fake_db r fake_db' :
  post_users now body fake_db = (Created r, fake_db') ↔
  ∃ u, UserCreate.validate body = inr u
     ∧ r = UserOut.dump (user_out now u)
     ∧ fake_db' = fake_db ++ [db_user now u].
Proof.
  rewrite post_users_eq.
  destruct (UserCreate.validate body) as [errs|u]; split;
    [done|intros (?&?&_); done|intros; simplify_eq; eauto|].
  intros (u' & ? & -> & ->). by simplify_eq.
Qed.

Lemma post_users_UnprocessableEntity now body fake_db errs :
  UserCreate.validate body = inl errs →
  post_users now body fake_db =
    (UnprocessableEntity (in_body <$> errs), fake_db).
Proof. intros Hv. by rewrite post_users_eq, Hv. Qed.

End Handlers.

(** ** Sequences of requests *)

Section Sequences.
Context `{EmailValidator}.

Lemma app_fake_db now req fake_db :
  (app now req fake_db).2 =
    fake_db ++ (uncurry db_user <$> registrations [(now, req)]).
Proof.
  unfold registrations, accepted.
  destruct req as [|body|]; cbn; rewrite ?app_nil_r; try done.
  rewrite post_users_eq.
  destruct (UserCreate.validate body); cbn; by rewrite ?app_nil_r.
Qed.

Lemma app_is_Created now req fake_db :
  is_Created (app now req fake_db).1 = bool_decide (is_Some (accepted (now, req))).
Proof.
  unfold accepted. destruct req as [|body|]; cbn; try done.
  rewrite post_users_eq. by destruct (UserCreate.validate body).
Qed.

Lemma serve_cons now req reqs fake_db :
  serve ((now, req) :: reqs) fake_db =
    ((app now req fake_db).1 :: (serve reqs (app now req fake_db).2).1,
     (serve reqs (app now req fake_db).2).2).
Proof.
  cbn [serve]. destruct (app now req fake_db) as [resp db']. cbn [fst snd].
  by destruct (serve reqs db').
Qed.

Lemma serve_app reqs1 reqs2 fake_db :
  serve (reqs1 ++ reqs2) fake_db =
    ((serve reqs1 fake_db).1 ++ (serve reqs2 (serve reqs1 fake_db).2).1,
     (serve reqs2 (serve reqs1 fake_db).2).2).
Proof.
  revert fake_db. induction reqs1 as [|[now req] reqs1 IH]; intros fake_db.
  - cbn. by destruct (serve reqs2 fake_db).
  - rewrite <-app_comm_cons, !serve_cons, IH. done.
Qed.

(** The store after a sequence of requests is the store before it
    followed by one record per registration, in order. *)
Lemma serve_fake_db reqs fake_db :
  (serve reqs fake_db).2 =
    fake_db ++ (uncurry db_user <$> registrations reqs).
Proof.
  revert fake_db. induction reqs as [|[now req] reqs IH]; intros fake_db.
  - cbn. by rewrite app_nil_r.
  - rewrite serve_cons. cbn [snd]. rewrite IH, app_fake_db.
    unfold registrations. cbn [omap list_omap].
    destruct (accepted (now, req)); cbn; by rewrite <-?app_assoc, ?app_nil_r.
Qed.

(** As many 201 responses as registrations. *)
Lemma serve_Created reqs fake_db :
  length (filter is_Created (serve reqs fake_db).1) = length (registrations reqs).
Proof.
  revert fake_db. induction reqs as [|[now req] reqs IH]; intros fake_db.
  - done.
  - rewrite serve_cons. cbn [fst]. rewrite filter_cons.
    unfold registrations. cbn [omap list_omap]. fold (registrations reqs).
    pose proof (app_is_Created now req fake_db) as Hc.
    destruct (accepted (now, req)) as [a|].
    + rewrite bool_decide_eq_true_2 in Hc by eauto.
      case_decide as Hd; rewrite Hc in Hd; [|done]. cbn. by rewrite IH.
    + rewrite bool_decide_eq_false_2 in Hc by (by intros [??]).
      case_decide as Hd; rewrite Hc in Hd; [done|]. apply IH.
Qed.

Lemma join_dates_registrations (regs : list (datetime * UserCreate.t)) :
  join_dates (uncurry db_user <$> regs) = regs.*1.
Proof.
  induction regs as [|[now u] regs IH]; [done|].
  unfold join_dates in *. cbn [fmap list_fmap omap list_omap uncurry].
  unfold join_date_of at 1. rewrite db_user_join_date. cbn. by rewrite IH.
Qed.

Lemma registrations_times reqs t :
  t ∈ (registrations reqs).*1 → t ∈ reqs.*1.
Proof.
  induction reqs as [|[now req] reqs IH]; [done|].
  unfold registrations, accepted at 1. cbn.
  destruct req as [|body|]; cbn; [by right; auto| |by right; auto].
  destruct (UserCreate.validate body); cbn; [by right; auto|].
  intros [->|?]%elem_of_cons; [left|right; auto].
Qed.

(** The registrations keep the order of the requests, so clock readings
    that never decrease give join dates that never decrease. *)
Lemma registrations_Sorted reqs :
  Sorted Z.le reqs.*1 → Sorted Z.le (registrations reqs).*1.
Proof.
  intros Hs%Sorted_StronglySorted; [|apply _].
  apply StronglySorted_Sorted.
  induction reqs as [|[now req] reqs IH]; [constructor|].
  apply StronglySorted_inv in Hs as [Hs Hle].
  specialize (IH Hs). unfold registrations. cbn [omap list_omap].
  destruct (accepted (now, req)) as [[now' u]|] eqn:Ha; [|done].
  cbn. constructor; [done|].
  assert (now' = now) as ->.
  { unfold accepted in Ha. cbn in Ha. repeat case_match; by simplify_eq. }
  apply Forall_forall. intros t Ht%registrations_times.
  rewrite Forall_forall in Hle. auto.
Qed.
End Sequences.

(** ** Properties of the service *)

Section Liveness.
Context `{EmailValidator}.

(** C9: [GET /] answers 200 with the constant body
    [{"message": "FastAPI Server is running!"}] and leaves [fake_db] as
    it is, whatever the store holds and however often it is called. *)
Theorem root_constant (now : datetime) (times : list datetime)
    (fake_db : list dict) :
  app now GET_root fake_db =
    (OK (VDict {[ "message" := VStr "FastAPI Server is running!" ]}), fake_db)
  ∧ status_code (app now GET_root fake_db).1 = 200
  ∧ serve ((λ t, (t, GET_root)) <$> times) fake_db =
      (replicate (length times)
         (OK (VDict {[ "message" := VStr "FastAPI Server is running!" ]})),
       fake_db).
Proof.
  split_and!; [done..|].
  induction times as [|t times IH]; [done|].
  cbn [fmap list_fmap]. rewrite serve_cons. cbn [app fst snd].
  fold (fmap (M:=list) (λ t, (t, GET_root)) times). by rewrite IH.
Qed.
End Liveness.

Section Validation.
Context `{EmailValidator}.


Lemma validate_email_error d v :
  d !! "email" = Some v → ¬ email_shaped v →
  ∃ errs, UserCreate.validate (VDict d) = inl errs
        ∧ ∃ e, e ∈ errs ∧ loc e = ["email"].
Proof.
  intros Hd Hv.
  assert (∃ e, email_field "email" d = inl [e] ∧ loc e = ["email"])
    as (e & He & Hloc).
  { unfold email_field. rewrite Hd. destruct v; eauto.
    destruct (validate_email s) eqn:Hs; eauto.
    destruct Hv. eexists. eauto. }
  cbn [UserCreate.validate]. rewrite He.
  destruct (str_field "username" d), (str_field "password" d),
    (optional_str_field "full_name" d);
    (eexists; split; [done|]); exists e; (split; [|done]);
    cbn [errors]; rewrite ?elem_of_app, ?elem_of_cons; auto 10.
Qed.


(** C4: a body whose [email] is not an address the validator accepts (a
    string it rejects, or no string at all) is answered 422 with an entry
    located at [email], and [fake_db] is not touched; ["not-an-email"] is
    such a value. *)
Theorem create_user_email_syntax (now : datetime) (d : dict)
    (fake_db : list dict) :
  (∀ v, d !! "email" = Some v → ¬ email_shaped v →
     ∃ detail,
       post_users now (VDict d) fake_db = (UnprocessableEntity detail, fake_db)
       ∧ ∃ e, e ∈ detail ∧ loc e = ["body"; "email"])
  ∧ ¬ email_shaped (VStr "not-an-email").
Proof.
  split.
  - intros v Hd Hv.
    destruct (validate_email_error d v Hd Hv) as (errs & Hval & e & Hin & Hloc).
    exists (in_body <$> errs).
    rewrite (post_users_UnprocessableEntity _ _ _ _ Hval). split; [done|].
    exists (in_body e). split; [by apply list_elem_of_fmap_2|].
    cbn. by rewrite Hloc.
  - intros (s & [= <-] & Hs).
    rewrite validate_email_at_sign in Hs; [by destruct Hs|].
    compute_done.
Qed.
End Validation.

Section Registration.
Context `{EmailValidator}.

Lemma validate_accepts d u e p :
  d !! "username" = Some (VStr u) →
  d !! "email" = Some (VStr e) → is_Some (validate_email e) →
  d !! "password" = Some (VStr p) →
  optional_str (d !! "full_name") →
  ∃ n f, UserCreate.validate (VDict d) =
           inr {| UserCreate.username := u; UserCreate.email := n;
                  UserCreate.password := p; UserCreate.full_name := f |}
       ∧ validate_email e = Some n
       ∧ optional_str_field "full_name" d = inr f.
Proof.
  intros Hu He [n Hn] Hp Hf.
  assert (∃ f, optional_str_field "full_name" d = inr f) as [f Hf'].
  { unfold optional_str_field.
    destruct Hf as [->|[->|[s ->]]]; eauto. }
  exists n, f. split_and!; [|done..].
  apply UserCreate_validate_inr. exists d. cbn. split_and!; [done| | | |done].
  - by apply str_field_inr.
  - apply email_field_inr; eauto.
  - by apply str_field_inr.
Qed.

(** Only the four fields of the model are read from a body. *)
Lemma validate_ext d d' :
  (∀ name, name ∈ UserCreate_fields → d' !! name = d !! name) →
  UserCreate.validate (VDict d') = UserCreate.validate (VDict d).
Proof.
  intros Hd. unfold UserCreate.validate, str_field, email_field,
    optional_str_field, UserCreate_fields in *.
  by rewrite !Hd by set_solver.
Qed.

(** C1, as the code has it: the body of a 201 answer has exactly the keys
    [username], [email], [full_name] and [join_date]; it has no
    [password] and no [hashed_password] key; and it is the same whatever
    password was submitted. *)
Theorem create_user_response (now : datetime) (body : value)
    (fake_db : list dict) (content : dict) (fake_db' : list dict) :
  post_users now body fake_db = (Created content, fake_db') →
  dom content = {[ "username"; "email"; "full_name"; "join_date" ]}
  ∧ content !! "password" = None
  ∧ content !! "hashed_password" = None
  ∧ ∃ d, body = VDict d
       ∧ ∀ pw, (post_users now (VDict (<["password" := VStr pw]> d)) fake_db).1
               = Created content.
Proof.
  intros (u & Hv & -> & ->)%post_users_Created.
  split_and!; [apply dump_dom|by cbn; simplify_map_eq..|].
  apply UserCreate_validate_inr in Hv as (d & -> & Hu & He & Hp & Hf).
  exists d. split; [done|]. intros pw. rewrite post_users_eq.
  assert (UserCreate.validate (VDict (<["password" := VStr pw]> d)) =
          inr {| UserCreate.username := UserCreate.username u;
                 UserCreate.email := UserCreate.email u;
                 UserCreate.password := pw;
                 UserCreate.full_name := UserCreate.full_name u |}) as ->; [|done].
  apply UserCreate_validate_inr. eexists. split; [done|]. cbn.
  unfold str_field, email_field, optional_str_field in *.
  by simplify_map_eq.
Qed.

(** C6: the record a registration stores has, under [hashed_password],
    the marker ["hashed_"] followed by the submitted password; any other
    registration with that password stores the same digest. *)
Theorem hashed_password_derivation (now : datetime) (body : value)
    (fake_db : list dict) (content : dict) (fake_db' : list dict) :
  post_users now body fake_db = (Created content, fake_db') →
  ∃ d pw record,
    body = VDict d ∧ d !! "password" = Some (VStr pw)
    ∧ fake_db' = fake_db ++ [record]
    ∧ record !! "hashed_password" = Some (VStr ("hashed_" +:+ pw))
    ∧ ∀ now2 d2 fake_db2 content2 fake_db2',
        d2 !! "password" = Some (VStr pw) →
        post_users now2 (VDict d2) fake_db2 = (Created content2, fake_db2') →
        ∃ record2, fake_db2' = fake_db2 ++ [record2]
                 ∧ record2 !! "hashed_password" = record !! "hashed_password".
Proof.
  intros (u & Hv & -> & ->)%post_users_Created.
  apply UserCreate_validate_inr in Hv as (d & -> & _ & _ & Hp%str_field_inr & _).
  exists d, (UserCreate.password u), (db_user now u).
  split_and!; [done..|apply db_user_hashed_password|].
  intros now2 d2 fake_db2 content2 fake_db2' Hp2
    (u2 & Hv2 & -> & ->)%post_users_Created.
  apply UserCreate_validate_inr in Hv2
    as (? & [= <-] & _ & _ & Hp2'%str_field_inr & _).
  exists (db_user now2 u2). split; [done|].
  rewrite !db_user_hashed_password. congruence.
Qed.

(** C8: a body with string [username] and [password], an [email] the
    validator accepts and no [full_name] key is answered 201, and
    [full_name] is [None] in the answer and in the stored record. *)
Theorem create_user_without_full_name (now : datetime) (d : dict)
    (fake_db : list dict) (u e p : string) :
  d !! "username" = Some (VStr u) →
  d !! "email" = Some (VStr e) → email_shaped (VStr e) →
  d !! "password" = Some (VStr p) →
  d !! "full_name" = None →
  ∃ content record,
    post_users now (VDict d) fake_db = (Created content, fake_db ++ [record])
    ∧ status_code (post_users now (VDict d) fake_db).1 = 201
    ∧ content !! "full_name" = Some VNone
    ∧ record !! "full_name" = Some VNone.
Proof.
  intros Hu He (? & [= <-] & Hs) Hp Hf.
  destruct (validate_accepts d u e p) as (n & f & Hv & _ & Hf');
    [done..|by left|].
  unfold optional_str_field in Hf'. rewrite Hf in Hf'. simplify_eq.
  eexists _, _. rewrite post_users_eq, Hv. split_and!; [done..| |].
  - by cbn; simplify_map_eq.
  - by rewrite db_user_full_name.
Qed.

(** C10: keys that are not fields of [UserCreate] change nothing: a body
    whose fields validate is answered 201 with or without them, with the
    same answer and the same stored record, and that record has exactly
    the keys [username], [email], [full_name], [join_date] and
    [hashed_password]. *)
Theorem create_user_extra_fields (now : datetime) (d extra : dict)
    (fake_db : list dict) (u e p : string) :
  d !! "username" = Some (VStr u) →
  d !! "email" = Some (VStr e) → email_shaped (VStr e) →
  d !! "password" = Some (VStr p) →
  optional_str (d !! "full_name") →
  (∀ name, name ∈ UserCreate_fields → extra !! name = None) →
  ∃ content record,
    post_users now (VDict (d ∪ extra)) fake_db
      = (Created content, fake_db ++ [record])
    ∧ post_users now (VDict d) fake_db
      = (Created content, fake_db ++ [record])
    ∧ dom record =
        {[ "username"; "email"; "full_name"; "join_date"; "hashed_password" ]}.
Proof.
  intros Hu He (? & [= <-] & Hs) Hp Hf Hextra.
  destruct (validate_accepts d u e p) as (n & f & Hv & _); [done..|].
  eexists _, _. rewrite !post_users_eq, validate_ext with (d := d), Hv.
  - split_and!; [done..|apply db_user_dom].
  - intros name Hname. apply Hextra in Hname.
    rewrite lookup_union. rewrite Hname. by destruct (d !! name).
Qed.
End Registration.

Section Store.
Context `{EmailValidator}.

(** Every record of the store was built by [create_user] from an accepted
    body. *)
Lemma serve_records reqs record :
  record ∈ (serve reqs []).2 →
  ∃ now body u,
    (now, POST_users body) ∈ reqs
    ∧ UserCreate.validate body = inr u
    ∧ record = db_user now u.
Proof.
  rewrite serve_fake_db, app_nil_l.
  intros ([now u] & -> & Hin)%list_elem_of_fmap.
  unfold registrations in Hin.
  apply list_elem_of_omap in Hin as ([now' req] & Hreq & Ha).
  unfold accepted in Ha. cbn in Ha.
  destruct req as [|body|]; try done.
  destruct (UserCreate.validate body) eqn:Hv; simplify_eq. eauto 10.
Qed.

(** C7: [GET /users/] answers 200 with the whole of [fake_db], record by
    record and in order, through no response model, and leaves it as it
    is; the records the service has stored each carry their
    [hashed_password]. *)
Theorem get_all_users_raw (now : datetime) (fake_db : list dict)
    (reqs : list (datetime * request)) :
  app now GET_users fake_db = (OK (VList (VDict <$> fake_db)), fake_db)
  ∧ get_all_users fake_db = fake_db
  ∧ Forall (λ record : dict,
              ∃ pw, record !! "hashed_password" = Some (VStr ("hashed_" +:+ pw)))
           (serve reqs []).2.
Proof.
  split_and!; [done..|]. apply Forall_forall.
  intros record (now' & body & u & _ & _ & ->)%serve_records.
  eauto using db_user_hashed_password.
Qed.

(** C5, as the code has it: every record of the store has a string under
    [username], of any length, and under [email] an address the validator
    accepts. *)
Theorem stored_username_email (reqs : list (datetime * request))
    (record : dict) :
  record ∈ (serve reqs []).2 →
  (∃ u, record !! "username" = Some (VStr u))
  ∧ ∃ e, record !! "email" = Some (VStr e) ∧ email_shaped (VStr e).
Proof.
  intros (now & body & u & _ & Hv & ->)%serve_records. split.
  - eauto using db_user_username.
  - exists (UserCreate.email u). split; [apply db_user_email|].
    eexists. split; [done|].
    by rewrite (UserCreate_validate_email _ _ Hv).
Qed.

(** C3, as the code has it: after any sequence of requests on an empty
    store, [GET /users/] returns one record per 201-answered registration
    in the order of the requests; each record's [join_date] is the clock
    reading of its registration, so the join dates never decrease when
    the clock readings do not; and the store after a part of the sequence
    is a prefix of the store after all of it. *)
Theorem fake_db_append_only (reqs : list (datetime * request)) :
  (∀ now, (app now GET_users (serve reqs []).2).1
          = OK (VList (VDict <$> (serve reqs []).2)))
  ∧ (serve reqs []).2 = uncurry db_user <$> registrations reqs
  ∧ length (serve reqs []).2 = length (filter is_Created (serve reqs []).1)
  ∧ join_dates (serve reqs []).2 = (registrations reqs).*1
  ∧ (Sorted Z.le reqs.*1 → Sorted Z.le (join_dates (serve reqs []).2))
  ∧ (∀ reqs1 reqs2, reqs = reqs1 ++ reqs2 →
       (serve reqs1 []).2 `prefix_of` (serve reqs []).2).
Proof.
  rewrite serve_Created, serve_fake_db, app_nil_l, join_dates_registrations.
  split_and!; [done..|by rewrite length_fmap|done|apply registrations_Sorted|].
  intros reqs1 reqs2 ->. rewrite serve_fake_db, app_nil_l.
  unfold registrations. rewrite omap_app, fmap_app. by apply prefix_app_r.
Qed.
End Store.

(** ** Three observations, whatever the address check *)

Section Observations.
Context `{EmailValidator}.

(** No 201 answer has a [joined_at] key. *)
Lemma post_users_no_joined_at now body fake_db content fake_db' :
  post_users now body fake_db = (Created content, fake_db') →
  content !! "joined_at" = None.
Proof. intros (u & _ & -> & _)%post_users_Created. by cbn; simplify_map_eq. Qed.

(** With any address the check accepts, the empty [username] is stored. *)
Lemma post_users_empty_username now e p fake_db :
  email_shaped (VStr e) →
  ∃ content record,
    post_users now (VDict {[ "username" := VStr ""; "email" := VStr e;
                             "password" := VStr p ]}) fake_db
      = (Created content, fake_db ++ [record])
    ∧ record !! "username" = Some (VStr "").
Proof.
  intros (? & [= <-] & Hs).
  destruct (validate_accepts {[ "username" := VStr ""; "email" := VStr e;
                                "password" := VStr p ]} "" e p)
    as (n & f & Hv & _); [by simplify_map_eq..|by left|].
  eexists _, _. rewrite post_users_eq, Hv. split; [done|].
  apply db_user_username.
Qed.

(** Two registrations of an accepted body carry the two clock readings,
    in the order of the requests. *)
Lemma serve_two_registrations t1 t2 body u :
  UserCreate.validate body = inr u →
  join_dates (serve [(t1, POST_users body); (t2, POST_users body)] []).2
    = [t1; t2].
Proof.
  intros Hv. rewrite serve_fake_db, app_nil_l, join_dates_registrations.
  unfold registrations, accepted. cbn. by rewrite Hv.
Qed.
End Observations.

(** ** The service on concrete requests *)

(** C1: the answer to the valid request of [test_api.py] has no
    [joined_at] key: its keys are not [username], [email], [full_name],
    [joined_at]. *)
Lemma create_user_response_no_joined_at :
  ∃ content fake_db',
    @post_users Reference.validator 7 user_data [] = (Created content, fake_db')
    ∧ content !! "joined_at" = None
    ∧ dom content ≠ ({[ "username"; "email"; "full_name"; "joined_at" ]} : gset string).
Proof.
  eexists _, _. split; [vm_compute; reflexivity|]. split; [done|].
  intros Hdom.
  assert ("joined_at" ∈ ({[ "username"; "email"; "full_name"; "joined_at" ]} : gset string))
    as Hin by set_solver.
  rewrite <-Hdom in Hin. apply elem_of_dom in Hin as [? Hin]. done.
Qed.

(** C5: a registration with the empty string as [username] is accepted
    and its record stored. *)
Lemma empty_username_stored :
  ∃ content record,
    @post_users Reference.validator 7
      (VDict {[ "username" := VStr "";
                "email" := VStr "john@example.com";
                "password" := VStr "securepassword123" ]}) []
      = (Created content, [record])
    ∧ record !! "username" = Some (VStr "").
Proof. eexists _, _. split; [vm_compute; reflexivity|done]. Qed.

(** C3: two registrations with the clock set back between them
    ([datetime.now()] is the naive local time: an adjusted system clock, or
    the hour that repeats when daylight saving time ends): both are
    answered 201 and the store has the later join date first. *)
Lemma join_dates_follow_the_clock :
  status_code <$> (@serve Reference.validator
                     [(2%Z, POST_users user_data); (1%Z, POST_users user_data)] []).1
    = [201; 201]
  ∧ join_dates (@serve Reference.validator
                  [(2%Z, POST_users user_data); (1%Z, POST_users user_data)] []).2
    = [2; 1]%Z
  ∧ ¬ Sorted Z.le (join_dates (@serve Reference.validator
                     [(2%Z, POST_users user_data); (1%Z, POST_users user_data)] []).2).
Proof.
  split_and!; [vm_compute; reflexivity..|].
  assert (join_dates (@serve Reference.validator
            [(2%Z, POST_users user_data); (1%Z, POST_users user_data)] []).2 = [2; 1]%Z)
    as -> by (vm_compute; reflexivity).
  intros Hs. apply Sorted_inv in Hs as [_ Hhd]. apply HdRel_inv in Hhd. lia.
Qed.

Lemma john_email_shaped : @email_shaped Reference.validator (VStr "john@example.com").
Proof. eexists. split; [reflexivity|]. vm_compute. eauto. Qed.

Lemma create_user_response_witness :
  @post_users Reference.validator 7 user_data []
    = (Created (johndoe_content 7), [johndoe_record 7])
  ∧ dom (johndoe_content 7) = {[ "username"; "email"; "full_name"; "join_date" ]}
  ∧ johndoe_content 7 !! "password" = None
  ∧ johndoe_content 7 !! "hashed_password" = None
  ∧ ∃ d, user_data = VDict d
       ∧ ∀ pw, (@post_users Reference.validator 7
                  (VDict (<["password" := VStr pw]> d)) []).1
               = Created (johndoe_content 7).
Proof.
  split; [evaluate|].
  apply (@create_user_response Reference.validator 7 user_data [] _
           [johndoe_record 7]).
  evaluate.
Defined.


Lemma create_user_email_syntax_witness :
  ∃ detail,
    @post_users Reference.validator 7
      (VDict (<["email" := VStr "not-an-email"]> johndoe)) []
      = (UnprocessableEntity detail, [])
    ∧ ∃ e, e ∈ detail ∧ loc e = ["body"; "email"].
Proof.
  eapply (proj1 (@create_user_email_syntax Reference.validator 7
                   (<["email" := VStr "not-an-email"]> johndoe) [])).
  - evaluate.
  - apply (proj2 (@create_user_email_syntax Reference.validator 7 ∅ [])).
Defined.

Lemma hashed_password_derivation_witness :
  @post_users Reference.validator 7 user_data []
    = (Created (johndoe_content 7), [johndoe_record 7])
  ∧ ∃ d pw record,
      user_data = VDict d ∧ d !! "password" = Some (VStr pw)
      ∧ [johndoe_record 7] = [] ++ [record]
      ∧ record !! "hashed_password" = Some (VStr ("hashed_" +:+ pw))
      ∧ ∀ now2 d2 fake_db2 content2 fake_db2',
          d2 !! "password" = Some (VStr pw) →
          @post_users Reference.validator now2 (VDict d2) fake_db2
            = (Created content2, fake_db2') →
          ∃ record2, fake_db2' = fake_db2 ++ [record2]
                   ∧ record2 !! "hashed_password" = record !! "hashed_password".
Proof.
  split; [evaluate|].
  apply (@hashed_password_derivation Reference.validator 7 user_data []
           (johndoe_content 7)).
  evaluate.
Defined.

Lemma create_user_without_full_name_witness :
  ∃ content record,
    @post_users Reference.validator 7 (VDict (delete "full_name" johndoe)) []
      = (Created content, [] ++ [record])
    ∧ status_code (@post_users Reference.validator 7
                     (VDict (delete "full_name" johndoe)) []).1 = 201
    ∧ content !! "full_name" = Some VNone
    ∧ record !! "full_name" = Some VNone.
Proof.
  apply (@create_user_without_full_name Reference.validator 7
           (delete "full_name" johndoe) [] "johndoe" "john@example.com"
           "securepassword123").
  - evaluate.
  - evaluate.
  - apply john_email_shaped.
  - evaluate.
  - evaluate.
Defined.

Lemma create_user_extra_fields_witness :
  ∃ content record,
    @post_users Reference.validator 7 (VDict (johndoe ∪ unknown_fields)) []
      = (Created content, [] ++ [record])
    ∧ @post_users Reference.validator 7 (VDict johndoe) []
      = (Created content, [] ++ [record])
    ∧ dom record =
        {[ "username"; "email"; "full_name"; "join_date"; "hashed_password" ]}.
Proof.
  apply (@create_user_extra_fields Reference.validator 7 johndoe unknown_fields
           [] "johndoe" "john@example.com" "securepassword123").
  - evaluate.
  - evaluate.
  - apply john_email_shaped.
  - evaluate.
  - right. right. exists "John Doe". evaluate.
  - intros name Hname. unfold UserCreate_fields in Hname.
    repeat (apply elem_of_cons in Hname as [->|Hname]); try evaluate.
    by apply elem_of_nil in Hname.
Defined.

Lemma stored_username_email_witness :
  johndoe_record 7 ∈ (@serve Reference.validator [(7%Z, POST_users user_data)] []).2
  ∧ (∃ u, johndoe_record 7 !! "username" = Some (VStr u))
  ∧ ∃ e, johndoe_record 7 !! "email" = Some (VStr e)
       ∧ @email_shaped Reference.validator (VStr e).
Proof.
  assert (johndoe_record 7
            ∈ (@serve Reference.validator [(7%Z, POST_users user_data)] []).2)
    as Hin.
  { replace (@serve Reference.validator [(7%Z, POST_users user_data)] []).2
      with [johndoe_record 7] by evaluate.
    apply list_elem_of_here. }
  split; [exact Hin|].
  exact (@stored_username_email Reference.validator _ _ Hin).
Defined.

Lemma fake_db_append_only_witness :
  Sorted Z.le [1; 2]%Z
  ∧ Sorted Z.le
      (join_dates (@serve Reference.validator
         [(1%Z, POST_users user_data); (2%Z, POST_users user_data)] []).2).
Proof.
  assert (Sorted Z.le [1; 2]%Z) as Hs by (repeat constructor; lia).
  split; [exact Hs|].
  apply (@fake_db_append_only Reference.validator
           [(1%Z, POST_users user_data); (2%Z, POST_users user_data)]).
  exact Hs.
Defined.

(** ** More on the registration handler *)

Section Records.
Context `{EmailValidator}.

(** What [POST /users/] answers does not depend on the store. *)
Lemma post_users_response now body fake_db1 fake_db2 :
  (post_users now body fake_db1).1 = (post_users now body fake_db2).1.
Proof. rewrite !post_users_eq. by destruct (UserCreate.validate body). Qed.

(** The answer of a registration is its record without the digest. *)
Lemma dump_db_user now u :
  UserOut.dump (user_out now u) = delete "hashed_password" (db_user now u).
Proof.
  apply map_eq. intros k. unfold UserOut.dump. cbn.
  destruct (decide (k = "hashed_password")) as [->|];
    [by simplify_map_eq|].
  rewrite lookup_delete_ne by done.
  destruct (decide (k = "username")) as [->|]; [by simplify_map_eq|].
  destruct (decide (k = "email")) as [->|]; [by simplify_map_eq|].
  destruct (decide (k = "full_name")) as [->|]; [by simplify_map_eq|].
  destruct (decide (k = "join_date")) as [->|]; by simplify_map_eq.
Qed.

(** X1: [create_user] never looks into [fake_db]: the answer to a body is
    the same on every store, and a body that was registered is registered
    again on the store it left, as a second record with the same
    [username] and [email]. *)
Theorem create_user_no_uniqueness (now1 now2 : datetime) (body : value)
    (fake_db : list dict) (content : dict) (fake_db' : list dict) :
  post_users now1 body fake_db = (Created content, fake_db') →
  (∀ other_db, (post_users now1 body other_db).1 = Created content)
  ∧ ∃ record1 record2 content2,
      fake_db' = fake_db ++ [record1]
      ∧ post_users now2 body fake_db'
          = (Created content2, fake_db ++ [record1; record2])
      ∧ record2 !! "username" = record1 !! "username"
      ∧ record2 !! "email" = record1 !! "email".
Proof.
  intros Hpost. split.
  - intros other_db. by rewrite (post_users_response _ _ _ fake_db), Hpost.
  - apply post_users_Created in Hpost as (u & Hv & -> & ->).
    exists (db_user now1 u), (db_user now2 u), (UserOut.dump (user_out now2 u)).
    rewrite post_users_eq, Hv, <-app_assoc.
    by rewrite !db_user_username, !db_user_email.
Qed.

(** X2: the body of a 201 answer is the record just stored with its
    [hashed_password] entry deleted, and nothing else changed. *)
Theorem create_user_response_projection (now : datetime) (body : value)
    (fake_db : list dict) (content : dict) (fake_db' : list dict) :
  post_users now body fake_db = (Created content, fake_db') →
  ∃ record,
    fake_db' = fake_db ++ [record]
    ∧ content = delete "hashed_password" record
    ∧ ∀ k, k ≠ "hashed_password" → content !! k = record !! k.
Proof.
  intros (u & _ & -> & ->)%post_users_Created.
  exists (db_user now u). split_and!; [done|apply dump_db_user|].
  intros k Hk. by rewrite dump_db_user, lookup_delete_ne.
Qed.

(** X3: the record of a registration, field by field: [username] is the
    body's, [email] is the normalised form of the body's address,
    [full_name] is the body's or [None] when the body has none,
    [join_date] is the clock reading, and there is no [password] entry. *)
Theorem create_user_record_fields (now : datetime) (d : dict)
    (fake_db : list dict) (content : dict) (fake_db' : list dict) :
  post_users now (VDict d) fake_db = (Created content, fake_db') →
  ∃ record e n,
    fake_db' = fake_db ++ [record]
    ∧ record !! "username" = d !! "username"
    ∧ d !! "email" = Some (VStr e) ∧ validate_email e = Some n
    ∧ record !! "email" = Some (VStr n)
    ∧ record !! "full_name" = Some (default VNone (d !! "full_name"))
    ∧ record !! "join_date" = Some (VDatetime now)
    ∧ record !! "password" = None.
Proof.
  intros (u & Hv & -> & ->)%post_users_Created.
  apply UserCreate_validate_inr in Hv
    as (? & [= <-] & Hu%str_field_inr & (e & He & Hn)%email_field_inr
          & _ & Hf%optional_str_field_inr).
  exists (db_user now u), e, (UserCreate.email u).
  rewrite db_user_username, db_user_email, db_user_full_name, db_user_join_date.
  split_and!; try done.
  destruct (d !! "full_name") as [[]|]; try done; by rewrite Hf.
Qed.

(** X4: the digest gives the password away: two registrations store the
    same [hashed_password] only when the same password was submitted. *)
Theorem hashed_password_injective (now1 now2 : datetime) (d1 d2 : dict)
    (fake_db1 fake_db2 : list dict) (content1 content2 : dict)
    (fake_db1' fake_db2' : list dict) :
  post_users now1 (VDict d1) fake_db1 = (Created content1, fake_db1') →
  post_users now2 (VDict d2) fake_db2 = (Created content2, fake_db2') →
  last fake_db1' ≫= (.!! "hashed_password")
    = last fake_db2' ≫= (.!! "hashed_password") →
  d1 !! "password" = d2 !! "password".
Proof.
  intros (u1 & Hv1 & -> & ->)%post_users_Created
         (u2 & Hv2 & -> & ->)%post_users_Created.
  rewrite !last_snoc. cbn [mbind option_bind].
  rewrite !db_user_hashed_password.
  apply UserCreate_validate_inr in Hv1
    as (? & [= <-] & _ & _ & Hp1%str_field_inr & _).
  apply UserCreate_validate_inr in Hv2
    as (? & [= <-] & _ & _ & Hp2%str_field_inr & _).
  rewrite Hp1, Hp2. intros Heq. injection Heq as Heq.
  change (UserCreate.password u1 = UserCreate.password u2) in Heq.
  by rewrite Heq.
Qed.
End Records.

(** ** More on validation *)

Section Errors.
Context `{EmailValidator}.

(** A field that fails reports one entry, located at the field. *)
Lemma str_field_inl name d l :
  str_field name d = inl l →
  (l = [missing name] ∧ d !! name = None)
  ∨ (l = [string_type name] ∧ ∃ v, d !! name = Some v ∧ ∀ s, v ≠ VStr s).
Proof.
  unfold str_field. destruct (d !! name) as [v|]; [|intros [= <-]; auto].
  destruct v; intros [= <-]; right; (split; [done|]); eexists; split; done.
Qed.

Lemma email_field_inl name d l :
  email_field name d = inl l →
  (l = [missing name] ∧ d !! name = None)
  ∨ (l = [string_type name] ∧ ∃ v, d !! name = Some v ∧ ∀ s, v ≠ VStr s)
  ∨ (l = [value_error name]
     ∧ ∃ s, d !! name = Some (VStr s) ∧ validate_email s = None).
Proof.
  unfold email_field. destruct (d !! name) as [v|]; [|intros [= <-]; auto].
  destruct v as [| | |s| | |];
    try (intros [= <-]; right; left; (split; [done|]); eexists; split; done).
  destruct (validate_email s) eqn:Hs; intros [= <-]. right. right. eauto.
Qed.

Lemma optional_str_field_inl name d l :
  optional_str_field name d = inl l →
  l = [string_type name]
  ∧ ∃ v, d !! name = Some v ∧ v ≠ VNone ∧ ∀ s, v ≠ VStr s.
Proof.
  unfold optional_str_field. destruct (d !! name) as [v|]; [|done].
  destruct v; intros [= <-]; (split; [done|]); eexists; split_and!; done.
Qed.

(** The model is built when no field fails, and all failures are reported
    together otherwise. *)
Lemma validate_dict d :
  match UserCreate.validate (VDict d) with
  | inl errs => errs = UserCreate_errors d ∧ errs ≠ []
  | inr _ => UserCreate_errors d = []
  end.
Proof.
  unfold UserCreate_errors. cbn [UserCreate.validate].
  destruct (str_field "username" d) as [eu|u] eqn:Hu,
    (email_field "email" d) as [ee|e] eqn:He,
    (str_field "password" d) as [ep|p] eqn:Hp,
    (optional_str_field "full_name" d) as [ef|f] eqn:Hf;
    cbn [errors]; try done; (split; [done|]).
  all: try (apply str_field_inl in Hu as [[-> _]|[-> _]]; done).
  all: try (apply email_field_inl in He as [[-> _]|[[-> _]|[-> _]]]; done).
  all: try (apply str_field_inl in Hp as [[-> _]|[-> _]]; done).
  all: apply optional_str_field_inl in Hf as [-> _]; done.
Qed.

Lemma validate_dict_elem d e :
  e ∈ UserCreate_errors d →
  UserCreate.validate (VDict d) = inl (UserCreate_errors d).
Proof.
  intros He. pose proof (validate_dict d) as Hd.
  destruct (UserCreate.validate (VDict d)) as [errs|u].
  - by destruct Hd as [-> _].
  - rewrite Hd in He. by apply elem_of_nil in He.
Qed.

Lemma UserCreate_errors_locs d :
  (loc <$> (in_body <$> UserCreate_errors d)) `sublist_of` UserCreate_locs.
Proof.
  unfold UserCreate_errors, UserCreate_locs.
  destruct (str_field "username" d) as [eu|u] eqn:Hu,
    (email_field "email" d) as [ee|e] eqn:He,
    (str_field "password" d) as [ep|p] eqn:Hp,
    (optional_str_field "full_name" d) as [ef|f] eqn:Hf;
    cbn [errors app].
  all: try apply str_field_inl in Hu as [[-> _]|[-> _]].
  all: try apply email_field_inl in He as [[-> _]|[[-> _]|[-> _]]].
  all: try apply str_field_inl in Hp as [[-> _]|[-> _]].
  all: try apply optional_str_field_inl in Hf as [-> _].
  all: cbn.
  all: repeat first [apply sublist_nil_l | apply sublist_skip | apply sublist_cons].
Qed.

(** X5: [full_name] is the one field that may be [null]: a body with
    ["full_name": null] is answered exactly as the body without the key;
    a [full_name] that is neither a string nor [null] is answered 422 with
    a [string_type] entry at [full_name], whatever the other fields, and
    nothing is stored. *)
Theorem full_name_null_or_invalid (now : datetime) (d : dict)
    (fake_db : list dict) :
  (d !! "full_name" = Some VNone →
     post_users now (VDict d) fake_db
       = post_users now (VDict (delete "full_name" d)) fake_db)
  ∧ (∀ v, d !! "full_name" = Some v → v ≠ VNone → (∀ s, v ≠ VStr s) →
       ∃ detail,
         post_users now (VDict d) fake_db = (UnprocessableEntity detail, fake_db)
         ∧ {| type := "string_type"; loc := ["body"; "full_name"] |} ∈ detail).
Proof.
  split.
  - intros Hf. rewrite !post_users_eq.
    assert (UserCreate.validate (VDict (delete "full_name" d))
            = UserCreate.validate (VDict d)) as ->; [|done].
    unfold UserCreate.validate, str_field, email_field, optional_str_field.
    rewrite !lookup_delete_ne by done. by rewrite lookup_delete_eq, Hf.
  - intros v Hf Hnone Hstr.
    assert (string_type "full_name" ∈ UserCreate_errors d) as Hin.
    { unfold UserCreate_errors, optional_str_field at 1. rewrite Hf.
      rewrite !elem_of_app. do 3 right.
      destruct v; try done; try apply list_elem_of_here.
      by destruct (Hstr s). }
    exists (in_body <$> UserCreate_errors d).
    rewrite (post_users_UnprocessableEntity _ _ _ _ (validate_dict_elem _ _ Hin)).
    split; [done|]. by apply (list_elem_of_fmap_2 in_body) in Hin.
Qed.

(** X6: a required field that is present but no string ([null], a number,
    a list, ...) is answered 422 with a [string_type] entry at that field,
    and nothing is stored. *)
Theorem required_field_not_a_string (now : datetime) (d : dict)
    (fake_db : list dict) (name : string) (v : value) :
  name ∈ required_fields → d !! name = Some v → (∀ s, v ≠ VStr s) →
  ∃ detail,
    post_users now (VDict d) fake_db = (UnprocessableEntity detail, fake_db)
    ∧ {| type := "string_type"; loc := ["body"; name] |} ∈ detail.
Proof.
  intros Hname Hd Hstr.
  assert (string_type name ∈ UserCreate_errors d) as Hin.
  { assert (∀ field, (field = str_field ∨ field = email_field) →
              errors (field name d) = [string_type name]) as Hfield.
    { intros field [->| ->]; unfold str_field, email_field; rewrite Hd;
        destruct v; try done; by destruct (Hstr s). }
    unfold UserCreate_errors, required_fields in *.
    repeat (apply elem_of_cons in Hname as [->|Hname]);
      [| |   |by apply elem_of_nil in Hname].
    - rewrite (Hfield str_field) by auto. apply list_elem_of_here.
    - rewrite (Hfield email_field) by auto.
      rewrite !elem_of_app, elem_of_cons. auto.
    - rewrite (Hfield str_field) by auto.
      rewrite !elem_of_app, elem_of_cons. auto. }
  exists (in_body <$> UserCreate_errors d).
  rewrite (post_users_UnprocessableEntity _ _ _ _ (validate_dict_elem _ _ Hin)).
  split; [done|]. by apply (list_elem_of_fmap_2 in_body) in Hin.
Qed.

(** X7: a 422 answer is never empty and names each field at most once and
    in declaration order: its locations are [body] alone (the body is no
    object) or a sublist of [body.username], [body.email],
    [body.password], [body.full_name]. *)
Theorem detail_one_entry_per_field (now : datetime) (body : value)
    (fake_db : list dict) (detail : list ErrorDetail) (fake_db' : list dict) :
  post_users now body fake_db = (UnprocessableEntity detail, fake_db') →
  detail ≠ []
  ∧ (loc <$> detail = [["body"]] ∨ (loc <$> detail) `sublist_of` UserCreate_locs).
Proof.
  rewrite post_users_eq.
  destruct (UserCreate.validate body) as [errs|u] eqn:Hv; [|done].
  intros [= <- <-].
  destruct body as [| | | | | |d]; try (injection Hv as <-; split; [done|by left]).
  pose proof (validate_dict d) as Hd. rewrite Hv in Hd. destruct Hd as [-> Hne].
  split; [by destruct (UserCreate_errors d)|].
  right. apply UserCreate_errors_locs.
Qed.
End Errors.

(** ** More on the service as a whole *)

Section Service.
Context `{EmailValidator}.

Lemma registrations_filter reqs :
  registrations (filter (λ nr, is_Some (accepted nr)) reqs) = registrations reqs.
Proof.
  unfold registrations. induction reqs as [|nr reqs IH]; [done|].
  rewrite filter_cons. cbn [omap list_omap].
  destruct (decide (is_Some (accepted nr))) as [[a Ha]|Hnone].
  - cbn [omap list_omap]. by rewrite Ha, IH.
  - destruct (accepted nr); [by destruct Hnone|done].
Qed.


(** X10: rejected registrations and reads leave no trace: the store after
    a sequence of requests is the store after its accepted registrations
    alone, served at the same clock readings. *)
Theorem serve_accepted_only (reqs : list (datetime * request))
    (fake_db : list dict) :
  (serve reqs fake_db).2
    = (serve (filter (λ nr, is_Some (accepted nr)) reqs) fake_db).2.
Proof. by rewrite !serve_fake_db, registrations_filter. Qed.

(** X11: [UserOut] round trip: validating the dump of a model whose
    address is in normal form gives the model back, also when the
    dictionary carries further keys, which is how [hashed_password] is
    dropped from the answer. *)
Theorem UserOut_dump_validate (out : UserOut.t) (extra : dict) :
  validate_email (UserOut.email out) = Some (UserOut.email out) →
  (∀ name, name ∈ ["username"; "email"; "full_name"; "join_date"] →
     extra !! name = None) →
  UserOut.validate (VDict (UserOut.dump out ∪ extra)) = inr out.
Proof.
  intros He Hextra.
  assert (∀ name, name ∈ ["username"; "email"; "full_name"; "join_date"] →
            (UserOut.dump out ∪ extra) !! name = UserOut.dump out !! name)
    as Hlookup.
  { intros name Hname. rewrite lookup_union, (Hextra name Hname).
    by destruct (UserOut.dump out !! name). }
  unfold UserOut.validate, str_field, email_field, optional_str_field,
    datetime_field.
  rewrite !Hlookup by set_solver. unfold UserOut.dump.
  simplify_map_eq. by destruct out as [u e [f|] j].
Qed.

(** X9: one run of [test_api.py] against the service, whatever its store:
    the liveness message, then a 201 whose body has the submitted
    [username] and [full_name] and the clock reading of the request, the
    status code 201, then a 422 with the single entry [missing] at
    [body.username]; the run leaves exactly one more record in the store,
    with the digest of the script's password. *)
Theorem test_api_run (t1 t2 t3 : datetime) (fake_db : list dict) :
  email_shaped (VStr "john@example.com") →
  ∃ content record,
    test_api t1 t2 t3 fake_db =
      ([ ("GET / response:", Json (OK (VDict root)));
         ("POST /users/ response:", Json (Created content));
         ("Status Code:", StatusCode 201);
         ("Invalid request response:",
          Json (UnprocessableEntity
                  [ {| type := "missing"; loc := ["body"; "username"] |} ])) ],
       fake_db ++ [record])
    ∧ content !! "username" = Some (VStr "johndoe")
    ∧ content !! "full_name" = Some (VStr "John Doe")
    ∧ content !! "join_date" = Some (VDatetime t2)
    ∧ record !! "hashed_password" = Some (VStr "hashed_securepassword123").
Proof.
  intros Hjohn. pose proof Hjohn as (? & [= <-] & n & Hn).
  destruct (validate_accepts johndoe "johndoe" "john@example.com"
              "securepassword123") as (n' & f & Hv & Hn' & Hf);
    [done..|by right; right; eexists|].
  assert (f = Some "John Doe") as -> by (by injection Hf).
  assert (UserCreate.validate invalid_data = inl [missing "username"]) as Hinv.
  { cbn. unfold email_field. by simplify_map_eq. }
  unfold test_api. cbn [app]. unfold user_data.
  rewrite post_users_eq, Hv. cbv beta iota zeta.
  rewrite post_users_eq, Hinv. cbn [status_code fmap list_fmap in_body].
  eexists _, _. split_and!; [done|by cbn; simplify_map_eq..|].
  by rewrite db_user_hashed_password.
Qed.
End Service.

(** ** The further results on concrete requests *)

Lemma create_user_no_uniqueness_witness :
  @post_users Reference.validator 7 user_data []
    = (Created (johndoe_content 7), [johndoe_record 7])
  ∧ (∀ other_db,
       (@post_users Reference.validator 7 user_data other_db).1
         = Created (johndoe_content 7))
  ∧ ∃ record1 record2 content2,
      [johndoe_record 7] = [] ++ [record1]
      ∧ @post_users Reference.validator 9 user_data [johndoe_record 7]
          = (Created content2, [] ++ [record1; record2])
      ∧ record2 !! "username" = record1 !! "username"
      ∧ record2 !! "email" = record1 !! "email".
Proof.
  split; [evaluate|].
  apply (@create_user_no_uniqueness Reference.validator 7 9 user_data []).
  evaluate.
Defined.

Lemma create_user_response_projection_witness :
  @post_users Reference.validator 7 user_data []
    = (Created (johndoe_content 7), [johndoe_record 7])
  ∧ ∃ record,
      [johndoe_record 7] = [] ++ [record]
      ∧ johndoe_content 7 = delete "hashed_password" record
      ∧ ∀ k, k ≠ "hashed_password" → johndoe_content 7 !! k = record !! k.
Proof.
  split; [evaluate|].
  apply (@create_user_response_projection Reference.validator 7 user_data []).
  evaluate.
Defined.

Lemma create_user_record_fields_witness :
  @post_users Reference.validator 7 (VDict johndoe) []
    = (Created (johndoe_content 7), [johndoe_record 7])
  ∧ ∃ record e n,
      [johndoe_record 7] = [] ++ [record]
      ∧ record !! "username" = johndoe !! "username"
      ∧ johndoe !! "email" = Some (VStr e)
      ∧ @validate_email Reference.validator e = Some n
      ∧ record !! "email" = Some (VStr n)
      ∧ record !! "full_name" = Some (default VNone (johndoe !! "full_name"))
      ∧ record !! "join_date" = Some (VDatetime 7)
      ∧ record !! "password" = None.
Proof.
  split; [evaluate|].
  apply (@create_user_record_fields Reference.validator 7 johndoe []
           (johndoe_content 7)).
  evaluate.
Defined.

Lemma hashed_password_injective_witness :
  johndoe !! "password" = <["username" := VStr "janedoe"]> johndoe !! "password".
Proof.
  apply (@hashed_password_injective Reference.validator 7 9 johndoe
           (<["username" := VStr "janedoe"]> johndoe) [] []
           (johndoe_content 7)
           (<["username" := VStr "janedoe"]> (johndoe_content 9))
           [johndoe_record 7]
           [<["username" := VStr "janedoe"]> (johndoe_record 9)]).
  - evaluate.
  - evaluate.
  - evaluate.
Defined.

Lemma full_name_null_or_invalid_witness :
  @post_users Reference.validator 7
     (VDict (<["full_name" := VNone]> johndoe)) []
    = @post_users Reference.validator 7
        (VDict (delete "full_name" (<["full_name" := VNone]> johndoe))) []
  ∧ ∃ detail,
      @post_users Reference.validator 7
         (VDict (<["full_name" := VInt 5]> johndoe)) []
        = (UnprocessableEntity detail, [])
      ∧ {| type := "string_type"; loc := ["body"; "full_name"] |} ∈ detail.
Proof.
  split.
  - apply (proj1 (@full_name_null_or_invalid Reference.validator 7
                    (<["full_name" := VNone]> johndoe) [])).
    evaluate.
  - apply (proj2 (@full_name_null_or_invalid Reference.validator 7
                    (<["full_name" := VInt 5]> johndoe) []) (VInt 5)).
    + evaluate.
    + discriminate.
    + discriminate.
Defined.

Lemma required_field_not_a_string_witness :
  ∃ detail,
    @post_users Reference.validator 7
       (VDict (<["username" := VNone]> johndoe)) []
      = (UnprocessableEntity detail, [])
    ∧ {| type := "string_type"; loc := ["body"; "username"] |} ∈ detail.
Proof.
  apply (@required_field_not_a_string Reference.validator 7
           (<["username" := VNone]> johndoe) [] "username" VNone).
  - apply list_elem_of_here.
  - evaluate.
  - discriminate.
Defined.

Lemma detail_one_entry_per_field_witness :
  [ {| type := "missing"; loc := ["body"; "username"] |} ] ≠ []
  ∧ (loc <$> [ {| type := "missing"; loc := ["body"; "username"] |} ]
       = [["body"]]
     ∨ (loc <$> [ {| type := "missing"; loc := ["body"; "username"] |} ])
         `sublist_of` UserCreate_locs).
Proof.
  apply (@detail_one_entry_per_field Reference.validator 7 invalid_data [] _ []).
  evaluate.
Defined.


Lemma UserOut_dump_validate_witness :
  @UserOut.validate Reference.validator
    (VDict (UserOut.dump
              {| UserOut.username := "johndoe";
                 UserOut.email := "john@example.com";
                 UserOut.full_name := Some "John Doe";
                 UserOut.join_date := 7 |}
            ∪ {[ "hashed_password" := VStr "hashed_securepassword123" ]}))
    = inr {| UserOut.username := "johndoe";
             UserOut.email := "john@example.com";
             UserOut.full_name := Some "John Doe";
             UserOut.join_date := 7 |}.
Proof.
  apply (@UserOut_dump_validate Reference.validator).
  - evaluate.
  - intros name Hname.
    repeat (apply elem_of_cons in Hname as [->|Hname]); try evaluate.
    by apply elem_of_nil in Hname.
Defined.

Lemma test_api_run_witness :
  ∃ content record,
    @test_api Reference.validator 1 2 3 [] =
      ([ ("GET / response:", Json (OK (VDict root)));
         ("POST /users/ response:", Json (Created content));
         ("Status Code:", StatusCode 201);
         ("Invalid request response:",
          Json (UnprocessableEntity
                  [ {| type := "missing"; loc := ["body"; "username"] |} ])) ],
       [] ++ [record])
    ∧ content !! "username" = Some (VStr "johndoe")
    ∧ content !! "full_name" = Some (VStr "John Doe")
    ∧ content !! "join_date" = Some (VDatetime 2)
    ∧ record !! "hashed_password" = Some (VStr "hashed_securepassword123").
Proof.
  apply (@test_api_run Reference.validator 1 2 3 []).
  apply john_email_shaped.
Defined.
